(** * AI Query Analysis Service: the heuristic classifier and its gateway

    A shallow embedding of [app/services.py] (the substring classifier
    [analyze_query_performance]) and of [app/main.py] (the two endpoints of
    the FastAPI application), with the properties of the service stated and
    proved over it. *)

From Stdlib Require Import List NArith Bool Ascii String Lia.
Import ListNotations.

Local Open Scope N_scope.
Local Open Scope list_scope.

#[local] Set Warnings "-register-all".

(** ** Python strings

    A Python [str] is a sequence of Unicode code points.  String literals of
    the source are ASCII and are written with [py]. *)

Definition codepoint := N.
Definition str := list codepoint.

Definition py (s : string) : str := map N_of_ascii (list_ascii_of_string s).

(** ** [str.upper]

    CPython uppercases a string code point by code point, each one mapping
    to one or more code points (full case mapping, no context rule).  On
    the ASCII range the mapping is [a-z -> A-Z] and the identity elsewhere.
    Past ASCII it is the table of the Unicode database, which is data of the
    interpreter and not of this repository: it is the parameter
    [unicode_upper] below. *)

Definition ascii_upper (c : codepoint) : codepoint :=
  if (97 <=? c) && (c <=? 122) then c - 32 else c.

Definition upper_codepoint (unicode_upper : codepoint -> str) (c : codepoint) : str :=
  if c <? 128 then [ascii_upper c] else unicode_upper c.

Definition upper (unicode_upper : codepoint -> str) (s : str) : str :=
  flat_map (upper_codepoint unicode_upper) s.

(** The trivial table, enough for strings that are ASCII throughout. *)
Definition no_mapping (c : codepoint) : str := [c].

Definition is_ascii (s : str) : bool := forallb (fun c => c <? 128) s.

(** ** The [in] operator on strings: [str_in sub s] is Python's [sub in s]. *)

Fixpoint startswith (s pre : str) {struct pre} : bool :=
  match pre, s with
  | [], _ => true
  | _ :: _, [] => false
  | a :: pre', b :: s' => (a =? b) && startswith s' pre'
  end.

Fixpoint str_in (sub s : str) : bool :=
  startswith s sub ||
  match s with
  | [] => false
  | _ :: s' => str_in sub s'
  end.

(** What [in] means: [sub] occurs in [s] as a contiguous block. *)
Definition occurs_in (sub s : str) : Prop :=
  exists before after, s = before ++ sub ++ after.

(** ** [services.py] *)

Definition SELECT_STAR_ADVICE : str :=
  py "Consider avoiding 'SELECT *' without a WHERE clause on large tables as it can cause full table scans. Specify the columns you need.".

(** The f-string of the second rule: [db_type] is spliced in as it is. *)
Definition wildcard_advice (db_type : str) : str :=
  py "For " ++ db_type ++
  py ", using a leading wildcard with LIKE (e.g., LIKE '%value') prevents the use of standard indexes. Consider using a Full-Text Search solution if this is a common pattern.".

Definition GENERIC_ADVICE : str :=
  py "No specific suggestion available. Review the query execution plan for performance bottlenecks and ensure appropriate indexes are in place.".

Section Classifier.

Variable unicode_upper : codepoint -> str.

(** The condition of the first [if] ... *)
Definition unscoped_select_star (query : str) : bool :=
  let query_upper := upper unicode_upper query in
  str_in (py "SELECT *") query_upper && negb (str_in (py "WHERE") query_upper).

(** ... and of the second. *)
Definition leading_wildcard (query : str) : bool :=
  let query_upper := upper unicode_upper query in
  str_in (py "LIKE '%") query_upper.

Definition analyze_query_performance (query db_type : str) : str :=
  let query_upper := upper unicode_upper query in
  if str_in (py "SELECT *") query_upper && negb (str_in (py "WHERE") query_upper)
  then SELECT_STAR_ADVICE
  else if str_in (py "LIKE '%") query_upper
  then wildcard_advice db_type
  else GENERIC_ADVICE.

End Classifier.

(** ** [main.py]: the data model

    Python values as they cross the HTTP boundary: what [json.loads] gives
    for a request body and what an endpoint hands back to the framework.  A
    number keeps its literal text. *)

Inductive value : Type :=
| VNone
| VBool (b : bool)
| VNumber (literal : str)
| VStr (s : str)
| VList (items : list value)
| VDict (items : list (str * value)).

Fixpoint str_eqb (a b : str) : bool :=
  match a, b with
  | [], [] => true
  | x :: a', y :: b' => (x =? y) && str_eqb a' b'
  | _, _ => false
  end.

(** A dict is kept as the list of its items in insertion order; a key
    written twice holds its last value. *)
Fixpoint dict_get (key : str) (items : list (str * value)) : option value :=
  match items with
  | [] => None
  | (k, v) :: rest =>
      match dict_get key rest with
      | Some later => Some later
      | None => if str_eqb k key then Some v else None
      end
  end.

Module QueryAnalysisRequest.
Record t : Type := mk { query : str; db_type : str }.
End QueryAnalysisRequest.

Module QueryAnalysisResponse.
Record t : Type := mk { query : str; suggestion : str }.

(** What the framework does with [response_model]: the endpoint's return
    value is read into the model, field by field. *)
Definition validate (v : value) : option t :=
  match v with
  | VDict items =>
      match dict_get (py "query") items, dict_get (py "suggestion") items with
      | Some (VStr q), Some (VStr s) => Some (mk q s)
      | _, _ => None
      end
  | _ => None
  end.

(** The model written back as the JSON object of the response body. *)
Definition dump (r : t) : value :=
  VDict [(py "query", VStr (query r)); (py "suggestion", VStr (suggestion r))].
End QueryAnalysisResponse.

(** Modelled from the spec: the validation of a request body against
    [QueryAnalysisRequest], done by the framework (FastAPI and pydantic) and
    absent from the repository.  The class declares two fields of type
    [str] with no default; per the spec the request fails validation when
    [query] or [db_type] is missing or is not a string. *)
Definition validate_request (body : value) : option QueryAnalysisRequest.t :=
  match body with
  | VDict items =>
      match dict_get (py "query") items, dict_get (py "db_type") items with
      | Some (VStr q), Some (VStr d) => Some (QueryAnalysisRequest.mk q d)
      | _, _ => None
      end
  | _ => None
  end.

(** What a request body holds under a key, if it is an object at all. *)
Definition body_field (key : str) (body : value) : option value :=
  match body with
  | VDict items => dict_get key items
  | _ => None
  end.

(** The field [key] is absent from the body, or is there and is not a
    string. *)
Definition missing_or_not_str (key : str) (body : value) : Prop :=
  match body_field key body with
  | Some (VStr _) => False
  | _ => True
  end.

(** ** Calls of the classifier

    An endpoint runs in a small writer monad that logs every call of
    [analyze_query_performance] with its arguments, so that "the classifier
    is not invoked" is a statement about the log. *)

Definition call : Type := (str * str)%type.
Definition Traced (A : Type) : Type := (A * list call)%type.

Definition ret {A : Type} (a : A) : Traced A := (a, []).

Definition bind {A B : Type} (m : Traced A) (k : A -> Traced B) : Traced B :=
  let '(a, log1) := m in
  let '(b, log2) := k a in
  (b, log1 ++ log2).

Notation "x <- m ;; k" := (bind m (fun x => k))
  (at level 61, m at next level, right associativity).

Definition result {A : Type} (m : Traced A) : A := fst m.
Definition calls {A : Type} (m : Traced A) : list call := snd m.

(** ** [main.py]: the endpoints *)

Inductive http_method : Type := GET | POST.

Inductive http_response : Type :=
| Ok200 (body : value)
| RequestValidationError
| ResponseValidationError.

Inductive endpoint : Type := analyze_query_endpoint | read_root_endpoint.

(** The routes the decorators [@app.post] and [@app.get] register. *)
Definition routes : list (http_method * str * endpoint) :=
  [ (POST, py "/analyze-query/", analyze_query_endpoint);
    (GET, py "/", read_root_endpoint) ].

Definition http_method_eqb (a b : http_method) : bool :=
  match a, b with
  | GET, GET | POST, POST => true
  | _, _ => false
  end.

Fixpoint find_route (table : list (http_method * str * endpoint))
    (m : http_method) (path : str) : option endpoint :=
  match table with
  | [] => None
  | (m', path', e) :: rest =>
      if http_method_eqb m m' && str_eqb path path' then Some e
      else find_route rest m path
  end.

Definition read_root : value :=
  VDict [(py "message", VStr (py "Observability AI Service is running"))].

Section Gateway.

Variable unicode_upper : codepoint -> str.

Definition call_classifier (query db_type : str) : Traced str :=
  (analyze_query_performance unicode_upper query db_type, [(query, db_type)]).

Definition analyze_query (request : QueryAnalysisRequest.t) : Traced value :=
  suggestion <- call_classifier (QueryAnalysisRequest.query request)
                                (QueryAnalysisRequest.db_type request) ;;
  ret (VDict [(py "query", VStr (QueryAnalysisRequest.query request));
              (py "suggestion", VStr suggestion)]).

(** POST /analyze-query/: body validation, the endpoint function, then
    the response model. *)
Definition post_analyze_query (body : value) : Traced http_response :=
  match validate_request body with
  | None => ret RequestValidationError
  | Some request =>
      returned <- analyze_query request ;;
      match QueryAnalysisResponse.validate returned with
      | Some response => ret (Ok200 (QueryAnalysisResponse.dump response))
      | None => ret ResponseValidationError
      end
  end.

(** GET /: [read_root] has no parameter, a body sent along is not read. *)
Definition get_root (body : value) : Traced http_response :=
  ret (Ok200 read_root).

Definition run_endpoint (e : endpoint) (body : value) : Traced http_response :=
  match e with
  | analyze_query_endpoint => post_analyze_query body
  | read_root_endpoint => get_root body
  end.

End Gateway.

(** * Properties *)

(** ** Strings *)

Lemma startswith_iff (s pre : str) :
  startswith s pre = true <-> exists rest, s = pre ++ rest.
Proof.
  revert s; induction pre as [|a pre IH]; intros s; simpl.
  - split; [intros _; now exists s | reflexivity].
  - destruct s as [|b s].
    + split; [discriminate | intros [rest H]; discriminate].
    + rewrite andb_true_iff, N.eqb_eq, IH. split.
      * intros [-> [rest ->]]. now exists rest.
      * intros [rest H]. injection H as -> ->. split; [reflexivity | now exists rest].
Qed.

Lemma str_in_iff (sub s : str) : str_in sub s = true <-> occurs_in sub s.
Proof.
  unfold occurs_in. induction s as [|b s IH].
  - simpl. rewrite orb_false_r, startswith_iff. split.
    + intros [rest H]. now exists [], rest.
    + intros [before [after H]]. destruct before; [now exists after | discriminate].
  - cbn [str_in]. rewrite orb_true_iff, startswith_iff, IH. split.
    + intros [[rest H] | [before [after H]]].
      * now exists [], rest.
      * exists (b :: before), after. simpl. now rewrite H.
    + intros [[|c before] [after H]].
      * left. now exists after.
      * right. injection H as _ H. now exists before, after.
Qed.

Lemma str_in_false_iff (sub s : str) : str_in sub s = false <-> ~ occurs_in sub s.
Proof.
  rewrite <- str_in_iff. destruct (str_in sub s); split; congruence.
Qed.

Lemma str_eqb_eq (a b : str) : str_eqb a b = true <-> a = b.
Proof.
  revert b; induction a as [|x a IH]; intros [|y b]; simpl;
    try (split; [discriminate | discriminate]); try tauto.
  rewrite andb_true_iff, N.eqb_eq, IH. split.
  - now intros [-> ->].
  - intros H; injection H as -> ->; tauto.
Qed.

(** On an ASCII string the Unicode table is never consulted. *)
Lemma upper_ascii_any_table (U V : codepoint -> str) (s : str) :
  is_ascii s = true -> upper U s = upper V s.
Proof.
  unfold upper, is_ascii. induction s as [|c s IH]; simpl; [reflexivity|].
  rewrite andb_true_iff. intros [Hc Hs].
  unfold upper_codepoint at 1 3. rewrite Hc. now rewrite IH.
Qed.

Lemma upper_app (U : codepoint -> str) (s t : str) :
  upper U (s ++ t) = upper U s ++ upper U t.
Proof. unfold upper. apply flat_map_app. Qed.

(** ** The three advice strings *)

Lemma wildcard_advice_head (d : str) : hd 0 (wildcard_advice d) = 70.
Proof. reflexivity. Qed.

Lemma select_star_not_wildcard (d : str) : SELECT_STAR_ADVICE <> wildcard_advice d.
Proof.
  intros H. apply (f_equal (hd 0)) in H.
  rewrite wildcard_advice_head in H. vm_compute in H. discriminate.
Qed.

Lemma generic_not_wildcard (d : str) : GENERIC_ADVICE <> wildcard_advice d.
Proof.
  intros H. apply (f_equal (hd 0)) in H.
  rewrite wildcard_advice_head in H. vm_compute in H. discriminate.
Qed.

Lemma select_star_not_generic : SELECT_STAR_ADVICE <> GENERIC_ADVICE.
Proof. vm_compute. discriminate. Qed.

Lemma db_type_in_wildcard_advice (d : str) : occurs_in d (wildcard_advice d).
Proof. unfold wildcard_advice. eexists _, _. reflexivity. Qed.

(** ** The classifier *)

Section ClassifierProperties.

Variable U : codepoint -> str.

Lemma classify_rules (q d : str) :
  analyze_query_performance U q d =
  if unscoped_select_star U q then SELECT_STAR_ADVICE
  else if leading_wildcard U q then wildcard_advice d
  else GENERIC_ADVICE.
Proof. reflexivity. Qed.

Lemma unscoped_select_star_iff (q : str) :
  unscoped_select_star U q = true <->
  occurs_in (py "SELECT *") (upper U q) /\ ~ occurs_in (py "WHERE") (upper U q).
Proof.
  unfold unscoped_select_star; cbv zeta.
  now rewrite andb_true_iff, negb_true_iff, str_in_iff, str_in_false_iff.
Qed.

Lemma unscoped_select_star_false_iff (q : str) :
  unscoped_select_star U q = false <->
  ~ (occurs_in (py "SELECT *") (upper U q) /\ ~ occurs_in (py "WHERE") (upper U q)).
Proof.
  rewrite <- unscoped_select_star_iff.
  destruct (unscoped_select_star U q); split; congruence.
Qed.

Lemma leading_wildcard_iff (q : str) :
  leading_wildcard U q = true <-> occurs_in (py "LIKE '%") (upper U q).
Proof. unfold leading_wildcard; cbv zeta. apply str_in_iff. Qed.

Lemma leading_wildcard_false_iff (q : str) :
  leading_wildcard U q = false <-> ~ occurs_in (py "LIKE '%") (upper U q).
Proof. unfold leading_wildcard; cbv zeta. apply str_in_false_iff. Qed.

Lemma first_rule (q d : str) :
  unscoped_select_star U q = true ->
  analyze_query_performance U q d = SELECT_STAR_ADVICE.
Proof. intros H. now rewrite classify_rules, H. Qed.

Lemma second_rule (q d : str) :
  unscoped_select_star U q = false -> leading_wildcard U q = true ->
  analyze_query_performance U q d = wildcard_advice d.
Proof. intros H1 H2. now rewrite classify_rules, H1, H2. Qed.

Lemma no_rule (q d : str) :
  unscoped_select_star U q = false -> leading_wildcard U q = false ->
  analyze_query_performance U q d = GENERIC_ADVICE.
Proof. intros H1 H2. now rewrite classify_rules, H1, H2. Qed.

(** C1.  A query whose uppercased form contains "SELECT *" and does not
    contain "WHERE" gets the fixed advice on unscoped SELECT *, whatever
    the db_type. *)
Theorem select_star_without_where (q : str) :
  occurs_in (py "SELECT *") (upper U q) ->
  ~ occurs_in (py "WHERE") (upper U q) ->
  forall d : str, analyze_query_performance U q d = SELECT_STAR_ADVICE.
Proof.
  intros HS HW d. apply first_rule, unscoped_select_star_iff. now split.
Qed.

(** C2.  A query whose uppercased form contains "LIKE '%" and that the
    first rule does not take gets the leading-wildcard advice, and that
    string contains db_type as it was given. *)
Theorem like_leading_wildcard (q d : str) :
  occurs_in (py "LIKE '%") (upper U q) ->
  ~ (occurs_in (py "SELECT *") (upper U q) /\ ~ occurs_in (py "WHERE") (upper U q)) ->
  analyze_query_performance U q d = wildcard_advice d /\ occurs_in d (analyze_query_performance U q d).
Proof.
  intros HL HN.
  assert (E : analyze_query_performance U q d = wildcard_advice d).
  { apply second_rule.
    - now apply unscoped_select_star_false_iff.
    - now apply leading_wildcard_iff. }
  split; [exact E | rewrite E; apply db_type_in_wildcard_advice].
Qed.

(** C3.  First match wins: a query that fits the first rule and also
    contains "LIKE '%" gets the advice of the first rule and not the
    wildcard advice. *)
Theorem first_rule_wins (q d : str) :
  occurs_in (py "SELECT *") (upper U q) ->
  ~ occurs_in (py "WHERE") (upper U q) ->
  occurs_in (py "LIKE '%") (upper U q) ->
  analyze_query_performance U q d = SELECT_STAR_ADVICE /\ analyze_query_performance U q d <> wildcard_advice d.
Proof.
  intros HS HW _.
  rewrite (first_rule q d (proj2 (unscoped_select_star_iff q) (conj HS HW))).
  split; [reflexivity | apply select_star_not_wildcard].
Qed.

(** C4 (as the code has it).  The query
    "SELECT * FROM t WHERE name LIKE '%foo'" contains "WHERE", so the
    first rule does not take it; it contains "LIKE '%", so it gets the
    wildcard advice written for "MySQL". *)
Theorem where_like_scenario :
  analyze_query_performance U (py "SELECT * FROM t WHERE name LIKE '%foo'") (py "MySQL")
  = wildcard_advice (py "MySQL").
Proof. vm_compute. reflexivity. Qed.

(** C5.  A query that fits neither rule gets the generic fallback for
    any db_type; so does, in particular, a query whose uppercased form
    has both "SELECT *" and "WHERE" and no "LIKE '%", and the empty
    query. *)
Theorem generic_fallback (q d : str) :
  (~ (occurs_in (py "SELECT *") (upper U q) /\ ~ occurs_in (py "WHERE") (upper U q))
   /\ ~ occurs_in (py "LIKE '%") (upper U q))
  \/ (occurs_in (py "SELECT *") (upper U q) /\ occurs_in (py "WHERE") (upper U q)
      /\ ~ occurs_in (py "LIKE '%") (upper U q))
  \/ q = [] ->
  analyze_query_performance U q d = GENERIC_ADVICE.
Proof.
  intros [[HN HL] | [[HS [HW HL]] | ->]].
  - apply no_rule.
    + now apply unscoped_select_star_false_iff.
    + now apply leading_wildcard_false_iff.
  - apply no_rule.
    + apply unscoped_select_star_false_iff. tauto.
    + now apply leading_wildcard_false_iff.
  - reflexivity.
Qed.

(** C6.  The classifier answers on every pair of strings, and its answer
    is one of three strings, no two of them equal: the SELECT * advice,
    the wildcard advice written for db_type, the generic fallback. *)
Theorem classifier_total (q d : str) :
  (exists advice : str,
      analyze_query_performance U q d = advice /\
      (advice = SELECT_STAR_ADVICE \/ advice = wildcard_advice d \/ advice = GENERIC_ADVICE))
  /\ SELECT_STAR_ADVICE <> wildcard_advice d
  /\ GENERIC_ADVICE <> wildcard_advice d
  /\ SELECT_STAR_ADVICE <> GENERIC_ADVICE.
Proof.
  split; [| split; [apply select_star_not_wildcard
                   | split; [apply generic_not_wildcard | apply select_star_not_generic]]].
  exists (analyze_query_performance U q d). split; [reflexivity|].
  rewrite classify_rules.
  destruct (unscoped_select_star U q); [now left|].
  destruct (leading_wildcard U q); [right; now left | right; now right].
Qed.

(** C10.  If the answer for db_type d1 is not the wildcard advice (so it
    is the SELECT * advice or the generic fallback), the answer is the
    same for any other db_type d2. *)
Theorem db_type_only_in_wildcard (q d1 d2 : str) :
  analyze_query_performance U q d1 <> wildcard_advice d1 ->
  analyze_query_performance U q d1 = analyze_query_performance U q d2
  /\ (analyze_query_performance U q d1 = SELECT_STAR_ADVICE
      \/ analyze_query_performance U q d1 = GENERIC_ADVICE).
Proof.
  intros H. rewrite !classify_rules in *.
  destruct (unscoped_select_star U q); [split; [reflexivity | now left]|].
  destruct (leading_wildcard U q); [now contradiction H|].
  split; [reflexivity | now right].
Qed.

End ClassifierProperties.

(** Concrete occurrences are settled by running [str_in]. *)
Ltac run_str_in :=
  first [ apply str_in_iff | apply str_in_false_iff
        | apply unscoped_select_star_false_iff ];
  vm_compute; reflexivity.

Lemma select_star_without_where_witness :
  occurs_in (py "SELECT *") (upper no_mapping (py "select * from users")) /\
  ~ occurs_in (py "WHERE") (upper no_mapping (py "select * from users")) /\
  forall d : str,
    analyze_query_performance no_mapping (py "select * from users") d = SELECT_STAR_ADVICE.
Proof.
  assert (HS : occurs_in (py "SELECT *") (upper no_mapping (py "select * from users")))
    by run_str_in.
  assert (HW : ~ occurs_in (py "WHERE") (upper no_mapping (py "select * from users")))
    by run_str_in.
  split; [exact HS | split; [exact HW |]].
  exact (select_star_without_where no_mapping _ HS HW).
Defined.

Lemma like_leading_wildcard_witness :
  let q := py "SELECT name FROM t WHERE name LIKE '%foo'" in
  let d := py "Oracle" in
  occurs_in (py "LIKE '%") (upper no_mapping q) /\
  ~ (occurs_in (py "SELECT *") (upper no_mapping q)
     /\ ~ occurs_in (py "WHERE") (upper no_mapping q)) /\
  analyze_query_performance no_mapping q d = wildcard_advice d /\
  occurs_in d (analyze_query_performance no_mapping q d).
Proof.
  intros q d.
  assert (HL : occurs_in (py "LIKE '%") (upper no_mapping q)) by run_str_in.
  assert (HN : ~ (occurs_in (py "SELECT *") (upper no_mapping q)
                  /\ ~ occurs_in (py "WHERE") (upper no_mapping q))) by run_str_in.
  split; [exact HL | split; [exact HN |]].
  exact (like_leading_wildcard no_mapping q d HL HN).
Defined.

Lemma first_rule_wins_witness :
  let q := py "select * from t having name like '%foo'" in
  let d := py "MySQL" in
  occurs_in (py "SELECT *") (upper no_mapping q) /\
  ~ occurs_in (py "WHERE") (upper no_mapping q) /\
  occurs_in (py "LIKE '%") (upper no_mapping q) /\
  analyze_query_performance no_mapping q d = SELECT_STAR_ADVICE /\
  analyze_query_performance no_mapping q d <> wildcard_advice d.
Proof.
  intros q d.
  assert (HS : occurs_in (py "SELECT *") (upper no_mapping q)) by run_str_in.
  assert (HW : ~ occurs_in (py "WHERE") (upper no_mapping q)) by run_str_in.
  assert (HL : occurs_in (py "LIKE '%") (upper no_mapping q)) by run_str_in.
  split; [exact HS | split; [exact HW | split; [exact HL |]]].
  exact (first_rule_wins no_mapping q d HS HW HL).
Defined.

(** The scenario as the spec words it does not hold, whatever the Unicode
    table: the answer is never the SELECT * advice. *)
Lemma where_like_scenario_not_select_star :
  ~ exists U : codepoint -> str,
      analyze_query_performance U (py "SELECT * FROM t WHERE name LIKE '%foo'") (py "MySQL")
      = SELECT_STAR_ADVICE.
Proof.
  intros [U H]. vm_compute in H. discriminate H.
Qed.

Lemma generic_fallback_witness :
  let q := py "SELECT * FROM users WHERE id=1" in
  let d := py "MySQL" in
  ((~ (occurs_in (py "SELECT *") (upper no_mapping q)
       /\ ~ occurs_in (py "WHERE") (upper no_mapping q))
    /\ ~ occurs_in (py "LIKE '%") (upper no_mapping q))
   \/ (occurs_in (py "SELECT *") (upper no_mapping q)
       /\ occurs_in (py "WHERE") (upper no_mapping q)
       /\ ~ occurs_in (py "LIKE '%") (upper no_mapping q))
   \/ q = []) /\
  analyze_query_performance no_mapping q d = GENERIC_ADVICE.
Proof.
  intros q d.
  assert (HS : occurs_in (py "SELECT *") (upper no_mapping q)) by run_str_in.
  assert (HW : occurs_in (py "WHERE") (upper no_mapping q)) by run_str_in.
  assert (HL : ~ occurs_in (py "LIKE '%") (upper no_mapping q)) by run_str_in.
  assert (H : (~ (occurs_in (py "SELECT *") (upper no_mapping q)
                  /\ ~ occurs_in (py "WHERE") (upper no_mapping q))
               /\ ~ occurs_in (py "LIKE '%") (upper no_mapping q))
              \/ (occurs_in (py "SELECT *") (upper no_mapping q)
                  /\ occurs_in (py "WHERE") (upper no_mapping q)
                  /\ ~ occurs_in (py "LIKE '%") (upper no_mapping q))
              \/ q = [])
    by (right; left; split; [exact HS | split; [exact HW | exact HL]]).
  split; [exact H | exact (generic_fallback no_mapping q d H)].
Defined.

Lemma db_type_only_in_wildcard_witness :
  let q := py "SELECT * FROM users" in
  let d1 := py "MySQL" in
  let d2 := py "Oracle" in
  analyze_query_performance no_mapping q d1 <> wildcard_advice d1 /\
  analyze_query_performance no_mapping q d1 = analyze_query_performance no_mapping q d2 /\
  (analyze_query_performance no_mapping q d1 = SELECT_STAR_ADVICE
   \/ analyze_query_performance no_mapping q d1 = GENERIC_ADVICE).
Proof.
  intros q d1 d2.
  assert (H : analyze_query_performance no_mapping q d1 <> wildcard_advice d1)
    by (intros E; vm_compute in E; discriminate E).
  split; [exact H | exact (db_type_only_in_wildcard no_mapping q d1 d2 H)].
Defined.

(** The scenarios of the spec that the code meets. *)

Example scenario_select_star :
  analyze_query_performance no_mapping (py "SELECT * FROM users") (py "PostgreSQL")
  = SELECT_STAR_ADVICE.
Proof. vm_compute. reflexivity. Qed.

Example scenario_generic :
  analyze_query_performance no_mapping (py "SELECT name FROM users WHERE id=1") (py "MySQL")
  = GENERIC_ADVICE.
Proof. vm_compute. reflexivity. Qed.

Example scenario_wildcard :
  analyze_query_performance no_mapping
    (py "SELECT name FROM t WHERE name LIKE '%foo'") (py "Oracle")
  = wildcard_advice (py "Oracle")
  /\ occurs_in (py "Oracle") (wildcard_advice (py "Oracle")).
Proof. split; [vm_compute; reflexivity | apply db_type_in_wildcard_advice]. Qed.

(** On an ASCII query the answer is the same under every Unicode table, so
    the scenarios above do not depend on [no_mapping]. *)
Lemma classify_ascii_any_table (U V : codepoint -> str) (q d : str) :
  is_ascii q = true ->
  analyze_query_performance U q d = analyze_query_performance V q d.
Proof.
  intros H. unfold analyze_query_performance; cbv zeta.
  now rewrite (upper_ascii_any_table U V q H).
Qed.

(** ** The gateway *)

Section GatewayProperties.

Variable U : codepoint -> str.

(** Validation refuses a body exactly when a field is missing or is not
    a string. *)
Lemma validate_request_none_iff (body : value) :
  validate_request body = None <->
  missing_or_not_str (py "query") body \/ missing_or_not_str (py "db_type") body.
Proof.
  unfold missing_or_not_str, body_field, validate_request.
  destruct body as [| b | n | s | l | items]; try tauto.
  destruct (dict_get (py "query") items) as [[| b | n | s | l | i]|];
    destruct (dict_get (py "db_type") items) as [[| b' | n' | s' | l' | i']|];
    try tauto; split; try discriminate; intros [[]|[]].
Qed.

Lemma validate_request_some (body : value) (request : QueryAnalysisRequest.t) :
  validate_request body = Some request <->
  body_field (py "query") body = Some (VStr (QueryAnalysisRequest.query request)) /\
  body_field (py "db_type") body = Some (VStr (QueryAnalysisRequest.db_type request)).
Proof.
  unfold body_field, validate_request. destruct request as [q d]; simpl.
  destruct body as [| b | n | s | l | items];
    try (split; [discriminate | intros [H _]; discriminate H]).
  destruct (dict_get (py "query") items) as [[| b | n | s | l | i]|];
    try (split; [discriminate | intros [H _]; discriminate H]);
    destruct (dict_get (py "db_type") items) as [[| b' | n' | s' | l' | i']|];
    try (split; [discriminate | intros [_ H]; discriminate H]).
  split.
  - intros H; injection H as -> ->. now split.
  - intros [H1 H2]. injection H1 as ->. injection H2 as ->. reflexivity.
Qed.

Lemma analyze_query_returns (request : QueryAnalysisRequest.t) :
  analyze_query U request =
  (VDict [(py "query", VStr (QueryAnalysisRequest.query request));
          (py "suggestion",
           VStr (analyze_query_performance U (QueryAnalysisRequest.query request)
                                             (QueryAnalysisRequest.db_type request)))],
   [(QueryAnalysisRequest.query request, QueryAnalysisRequest.db_type request)]).
Proof. reflexivity. Qed.

(** C7.  For every request the endpoint function returns the dict of the
    request's query, unchanged, and of the classifier's answer on the
    request's query and db_type; read into the response model it is a
    response with that query and that suggestion. *)
Theorem analyze_query_echo (request : QueryAnalysisRequest.t) :
  result (analyze_query U request) =
    VDict [(py "query", VStr (QueryAnalysisRequest.query request));
           (py "suggestion",
            VStr (analyze_query_performance U (QueryAnalysisRequest.query request)
                                              (QueryAnalysisRequest.db_type request)))]
  /\ exists response : QueryAnalysisResponse.t,
      QueryAnalysisResponse.validate (result (analyze_query U request)) = Some response /\
      QueryAnalysisResponse.query response = QueryAnalysisRequest.query request /\
      QueryAnalysisResponse.suggestion response =
        analyze_query_performance U (QueryAnalysisRequest.query request)
                                    (QueryAnalysisRequest.db_type request).
Proof.
  rewrite analyze_query_returns. split; [reflexivity|].
  eexists (QueryAnalysisResponse.mk _ _).
  split; [reflexivity | split; reflexivity].
Qed.

(** The same through the whole route: a body that validates is answered
    with 200, the echoed query and the suggestion, after one call of the
    classifier. *)
Lemma post_analyze_query_valid (body : value) (request : QueryAnalysisRequest.t) :
  validate_request body = Some request ->
  post_analyze_query U body =
  (Ok200 (VDict [(py "query", VStr (QueryAnalysisRequest.query request));
                 (py "suggestion",
                  VStr (analyze_query_performance U
                          (QueryAnalysisRequest.query request)
                          (QueryAnalysisRequest.db_type request)))]),
   [(QueryAnalysisRequest.query request, QueryAnalysisRequest.db_type request)]).
Proof.
  intros H. unfold post_analyze_query. rewrite H, analyze_query_returns.
  reflexivity.
Qed.

(** C8.  A body in which query or db_type is missing or is not a string
    is answered with a validation error, and the classifier is not
    called. *)
Theorem invalid_body_rejected (body : value) :
  missing_or_not_str (py "query") body \/ missing_or_not_str (py "db_type") body ->
  result (post_analyze_query U body) = RequestValidationError /\
  calls (post_analyze_query U body) = [].
Proof.
  intros H. apply validate_request_none_iff in H.
  unfold post_analyze_query. rewrite H. split; reflexivity.
Qed.

(** C9.  GET / is routed to [read_root], which reads nothing of the
    request and answers with the fixed payload; the classifier is not
    called. *)
Theorem root_liveness (body : value) :
  find_route routes GET (py "/") = Some read_root_endpoint /\
  run_endpoint U read_root_endpoint body =
    (Ok200 (VDict [(py "message", VStr (py "Observability AI Service is running"))]), []).
Proof. split; reflexivity. Qed.

Lemma post_route : find_route routes POST (py "/analyze-query/") = Some analyze_query_endpoint.
Proof. reflexivity. Qed.

End GatewayProperties.

Lemma invalid_body_rejected_witness :
  let body := VDict [(py "query", VStr (py "SELECT * FROM t"))] in
  (missing_or_not_str (py "query") body \/ missing_or_not_str (py "db_type") body) /\
  result (post_analyze_query no_mapping body) = RequestValidationError /\
  calls (post_analyze_query no_mapping body) = [].
Proof.
  intros body.
  assert (H : missing_or_not_str (py "query") body \/ missing_or_not_str (py "db_type") body)
    by (right; vm_compute; exact I).
  split; [exact H | exact (invalid_body_rejected no_mapping body H)].
Defined.

(** The POST scenario of the spec. *)
Example scenario_post :
  post_analyze_query no_mapping
    (VDict [(py "query", VStr (py "SELECT * FROM t")); (py "db_type", VStr (py "MySQL"))])
  = (Ok200 (VDict [(py "query", VStr (py "SELECT * FROM t"));
                   (py "suggestion", VStr SELECT_STAR_ADVICE)]),
     [(py "SELECT * FROM t", py "MySQL")]).
Proof. vm_compute. reflexivity. Qed.

(** A field that is a number, not a string, is refused as well. *)
Example scenario_post_number :
  post_analyze_query no_mapping
    (VDict [(py "query", VNumber (py "1")); (py "db_type", VStr (py "MySQL"))])
  = (RequestValidationError, []).
Proof. vm_compute. reflexivity. Qed.

(** * Further properties of the classifier *)

(** ** [upper] and occurrences *)

Lemma ascii_upper_ascii (c : codepoint) : c < 128 -> ascii_upper c < 128.
Proof.
  unfold ascii_upper. intros H.
  destruct ((97 <=? c) && (c <=? 122)); lia.
Qed.

Lemma ascii_upper_idem (c : codepoint) : ascii_upper (ascii_upper c) = ascii_upper c.
Proof.
  unfold ascii_upper.
  destruct ((97 <=? c) && (c <=? 122)) eqn:E; [| now rewrite E].
  apply andb_true_iff in E. destruct E as [E1 E2].
  apply N.leb_le in E1, E2.
  replace (97 <=? c - 32) with false; [reflexivity|].
  symmetry. apply N.leb_gt. lia.
Qed.

Lemma upper_cons (U : codepoint -> str) (c : codepoint) (s : str) :
  upper U (c :: s) = upper_codepoint U c ++ upper U s.
Proof. reflexivity. Qed.

Lemma upper_ascii_cons (U : codepoint -> str) (c : codepoint) (s : str) :
  c < 128 -> upper U (c :: s) = ascii_upper c :: upper U s.
Proof.
  intros H. rewrite upper_cons. unfold upper_codepoint.
  apply N.ltb_lt in H. now rewrite H.
Qed.

Lemma is_ascii_cons (c : codepoint) (s : str) :
  is_ascii (c :: s) = true <-> c < 128 /\ is_ascii s = true.
Proof. unfold is_ascii. simpl. now rewrite andb_true_iff, N.ltb_lt. Qed.

Lemma is_ascii_app (s t : str) : is_ascii (s ++ t) = is_ascii s && is_ascii t.
Proof. unfold is_ascii. apply forallb_app. Qed.

Lemma upper_ascii_is_ascii (U : codepoint -> str) (s : str) :
  is_ascii s = true -> is_ascii (upper U s) = true.
Proof.
  induction s as [|c s IH]; [reflexivity|].
  rewrite is_ascii_cons. intros [Hc Hs].
  rewrite (upper_ascii_cons U c s Hc). apply is_ascii_cons.
  split; [now apply ascii_upper_ascii | now apply IH].
Qed.

Lemma upper_ascii_idem (U : codepoint -> str) (s : str) :
  is_ascii s = true -> upper U (upper U s) = upper U s.
Proof.
  induction s as [|c s IH]; [reflexivity|].
  rewrite is_ascii_cons. intros [Hc Hs].
  rewrite (upper_ascii_cons U c s Hc).
  rewrite (upper_ascii_cons U _ _ (ascii_upper_ascii c Hc)).
  now rewrite ascii_upper_idem, IH.
Qed.

Lemma upper_ascii_length (U : codepoint -> str) (s : str) :
  is_ascii s = true -> List.length (upper U s) = List.length s.
Proof.
  induction s as [|c s IH]; [reflexivity|].
  rewrite is_ascii_cons. intros [Hc Hs].
  rewrite (upper_ascii_cons U c s Hc). simpl. now rewrite IH.
Qed.

(** Uppercasing keeps occurrences: it works code point by code point. *)
Lemma occurs_in_upper (U : codepoint -> str) (sub s : str) :
  occurs_in sub s -> occurs_in (upper U sub) (upper U s).
Proof.
  intros [before [after ->]]. rewrite !upper_app.
  now exists (upper U before), (upper U after).
Qed.

Lemma occurs_in_length (sub s : str) :
  occurs_in sub s -> (List.length sub <= List.length s)%nat.
Proof.
  intros [before [after ->]]. rewrite !length_app. lia.
Qed.

Lemma wildcard_advice_inj (d1 d2 : str) :
  wildcard_advice d1 = wildcard_advice d2 -> d1 = d2.
Proof.
  unfold wildcard_advice. intros H.
  apply app_inv_head in H. now apply app_inv_tail in H.
Qed.

Section ClassifierBehaviour.

Variable U : codepoint -> str.

(** X1.  Matching does not look at the case of an ASCII query: the query
    and its uppercased form get the same answer. *)
Theorem case_insensitive_ascii (q d : str) :
  is_ascii q = true ->
  analyze_query_performance U (upper U q) d = analyze_query_performance U q d.
Proof.
  intros H. unfold analyze_query_performance; cbv zeta.
  now rewrite (upper_ascii_idem U q H).
Qed.

(** X2.  A query that contains "WHERE" in any casing (a block whose
    uppercased form is "WHERE", be it a keyword, part of a name or of a
    literal) never gets the SELECT * advice. *)
Theorem where_blocks_select_star_advice (w q d : str) :
  occurs_in w q -> upper U w = py "WHERE" ->
  analyze_query_performance U q d <> SELECT_STAR_ADVICE.
Proof.
  intros Hw E.
  assert (HW : occurs_in (py "WHERE") (upper U q))
    by (rewrite <- E; now apply occurs_in_upper).
  assert (H1 : unscoped_select_star U q = false)
    by (apply unscoped_select_star_false_iff; tauto).
  rewrite classify_rules, H1.
  destruct (leading_wildcard U q).
  - intros H. symmetry in H. now apply select_star_not_wildcard in H.
  - intros H. symmetry in H. now apply select_star_not_generic in H.
Qed.

(** X3.  A query that contains, in any casing, both "WHERE" and "LIKE '%"
    gets the wildcard advice written for db_type, whether or not it has a
    "SELECT *". *)
Theorem where_and_like_give_wildcard (w l q d : str) :
  occurs_in w q -> upper U w = py "WHERE" ->
  occurs_in l q -> upper U l = py "LIKE '%" ->
  analyze_query_performance U q d = wildcard_advice d.
Proof.
  intros Hw Ew Hl El.
  apply second_rule.
  - apply unscoped_select_star_false_iff. intros [_ HN]. apply HN.
    rewrite <- Ew. now apply occurs_in_upper.
  - apply leading_wildcard_iff. rewrite <- El. now apply occurs_in_upper.
Qed.

(** X4.  The answer tells which rule applied: it is the SELECT * advice
    exactly when the uppercased query has "SELECT *" and no "WHERE", the
    wildcard advice exactly when that fails and it has "LIKE '%", and the
    generic fallback exactly when both fail. *)
Theorem advice_tells_rule (q d : str) :
  (analyze_query_performance U q d = SELECT_STAR_ADVICE <->
   occurs_in (py "SELECT *") (upper U q) /\ ~ occurs_in (py "WHERE") (upper U q))
  /\ (analyze_query_performance U q d = wildcard_advice d <->
      ~ (occurs_in (py "SELECT *") (upper U q) /\ ~ occurs_in (py "WHERE") (upper U q))
      /\ occurs_in (py "LIKE '%") (upper U q))
  /\ (analyze_query_performance U q d = GENERIC_ADVICE <->
      ~ (occurs_in (py "SELECT *") (upper U q) /\ ~ occurs_in (py "WHERE") (upper U q))
      /\ ~ occurs_in (py "LIKE '%") (upper U q)).
Proof.
  rewrite <- unscoped_select_star_false_iff, <- unscoped_select_star_iff,
    <- leading_wildcard_false_iff, <- leading_wildcard_iff.
  rewrite classify_rules.
  pose proof (select_star_not_wildcard d) as N1.
  pose proof (generic_not_wildcard d) as N2.
  pose proof select_star_not_generic as N3.
  destruct (unscoped_select_star U q), (leading_wildcard U q);
    repeat split; intros; try congruence; intuition congruence.
Qed.

(** X5.  When the wildcard rule applies, the answer tells the db_type:
    two labels give the same answer only if they are the same label. *)
Theorem wildcard_answer_tells_db_type (q d1 d2 : str) :
  analyze_query_performance U q d1 = wildcard_advice d1 ->
  (analyze_query_performance U q d1 = analyze_query_performance U q d2 <-> d1 = d2).
Proof.
  intros H. split; [| now intros ->].
  rewrite !classify_rules in *.
  destruct (unscoped_select_star U q);
    [now apply select_star_not_wildcard in H|].
  destruct (leading_wildcard U q);
    [apply wildcard_advice_inj | now apply generic_not_wildcard in H].
Qed.

(** X6.  An ASCII query of fewer than seven characters is too short for
    either pattern and gets the generic fallback. *)
Theorem short_query_generic (q d : str) :
  is_ascii q = true -> (List.length q < 7)%nat ->
  analyze_query_performance U q d = GENERIC_ADVICE.
Proof.
  intros Ha Hlen.
  pose proof (upper_ascii_length U q Ha) as L.
  apply no_rule.
  - apply unscoped_select_star_false_iff. intros [HS _].
    apply occurs_in_length in HS. rewrite L in HS.
    change (List.length (py "SELECT *")) with 8%nat in HS. lia.
  - apply leading_wildcard_false_iff. intros HL.
    apply occurs_in_length in HL. rewrite L in HL.
    change (List.length (py "LIKE '%")) with 7%nat in HL. lia.
Qed.

(** X7.  Nothing of the query goes into the answer: for an ASCII db_type
    the answer is ASCII, whatever code points the query holds, and it is
    never the empty string. *)
Theorem answer_ascii_and_not_empty (q d : str) :
  is_ascii d = true ->
  is_ascii (analyze_query_performance U q d) = true
  /\ analyze_query_performance U q d <> [].
Proof.
  intros Hd. rewrite classify_rules.
  destruct (unscoped_select_star U q); [split; [reflexivity | discriminate]|].
  destruct (leading_wildcard U q); [| split; [reflexivity | discriminate]].
  split; [| discriminate].
  unfold wildcard_advice. rewrite !is_ascii_app, Hd. reflexivity.
Qed.

End ClassifierBehaviour.

Lemma case_insensitive_ascii_witness :
  let q := py "select * from users" in
  let d := py "MySQL" in
  is_ascii q = true /\
  analyze_query_performance no_mapping (upper no_mapping q) d
  = analyze_query_performance no_mapping q d.
Proof.
  intros q d.
  assert (H : is_ascii q = true) by (vm_compute; reflexivity).
  split; [exact H | exact (case_insensitive_ascii no_mapping q d H)].
Defined.

Lemma where_blocks_select_star_advice_witness :
  let w := py "where" in
  let q := py "SELECT * FROM nowhere" in
  let d := py "MySQL" in
  occurs_in w q /\ upper no_mapping w = py "WHERE" /\
  analyze_query_performance no_mapping q d <> SELECT_STAR_ADVICE.
Proof.
  intros w q d.
  assert (Hw : occurs_in w q) by run_str_in.
  assert (E : upper no_mapping w = py "WHERE") by (vm_compute; reflexivity).
  split; [exact Hw | split; [exact E |]].
  exact (where_blocks_select_star_advice no_mapping w q d Hw E).
Defined.

Lemma where_and_like_give_wildcard_witness :
  let w := py "where" in
  let l := py "like '%" in
  let q := py "select * from t where name like '%foo'" in
  let d := py "MySQL" in
  occurs_in w q /\ upper no_mapping w = py "WHERE" /\
  occurs_in l q /\ upper no_mapping l = py "LIKE '%" /\
  analyze_query_performance no_mapping q d = wildcard_advice d.
Proof.
  intros w l q d.
  assert (Hw : occurs_in w q) by run_str_in.
  assert (Ew : upper no_mapping w = py "WHERE") by (vm_compute; reflexivity).
  assert (Hl : occurs_in l q) by run_str_in.
  assert (El : upper no_mapping l = py "LIKE '%") by (vm_compute; reflexivity).
  split; [exact Hw | split; [exact Ew | split; [exact Hl | split; [exact El |]]]].
  exact (where_and_like_give_wildcard no_mapping w l q d Hw Ew Hl El).
Defined.

Lemma wildcard_answer_tells_db_type_witness :
  let q := py "SELECT name FROM t WHERE name LIKE '%foo'" in
  let d1 := py "MySQL" in
  let d2 := py "Oracle" in
  analyze_query_performance no_mapping q d1 = wildcard_advice d1 /\
  (analyze_query_performance no_mapping q d1 = analyze_query_performance no_mapping q d2
   <-> d1 = d2).
Proof.
  intros q d1 d2.
  assert (H : analyze_query_performance no_mapping q d1 = wildcard_advice d1)
    by (vm_compute; reflexivity).
  split; [exact H | exact (wildcard_answer_tells_db_type no_mapping q d1 d2 H)].
Defined.

Lemma short_query_generic_witness :
  let q := py "SELECT" in
  let d := py "MySQL" in
  is_ascii q = true /\ (List.length q < 7)%nat /\
  analyze_query_performance no_mapping q d = GENERIC_ADVICE.
Proof.
  intros q d.
  assert (Ha : is_ascii q = true) by (vm_compute; reflexivity).
  assert (Hl : (List.length q < 7)%nat) by (vm_compute; lia).
  split; [exact Ha | split; [exact Hl |]].
  exact (short_query_generic no_mapping q d Ha Hl).
Defined.

(** The query here is not ASCII: it is the two code points U+00E9 and
    U+20AC. *)
Lemma answer_ascii_and_not_empty_witness :
  let q := [233; 8364] in
  let d := py "MySQL" in
  is_ascii d = true /\
  is_ascii (analyze_query_performance no_mapping q d) = true /\
  analyze_query_performance no_mapping q d <> [].
Proof.
  intros q d.
  assert (H : is_ascii d = true) by (vm_compute; reflexivity).
  split; [exact H | exact (answer_ascii_and_not_empty no_mapping q d H)].
Defined.

(** The bound of seven is the length of "LIKE '%", which is itself a query
    that the wildcard rule takes. *)
Example seven_characters_can_match :
  analyze_query_performance no_mapping (py "like '%") (py "MySQL")
  = wildcard_advice (py "MySQL").
Proof. vm_compute. reflexivity. Qed.

(** * Further properties of the gateway *)

Section GatewayBehaviour.

Variable U : codepoint -> str.

(** X8.  POST /analyze-query/ has two outcomes.  A body with a missing or
    non-string field is refused without a call of the classifier; any other
    body holds two strings, and is answered with 200, the query as sent and
    the classifier's answer, after exactly one call of the classifier on
    those two strings.  The answer of the endpoint function never fails
    the response model. *)
Theorem post_analyze_query_outcomes (body : value) :
  ((missing_or_not_str (py "query") body \/ missing_or_not_str (py "db_type") body)
   /\ post_analyze_query U body = (RequestValidationError, []))
  \/ (exists q d : str,
        body_field (py "query") body = Some (VStr q) /\
        body_field (py "db_type") body = Some (VStr d) /\
        post_analyze_query U body =
          (Ok200 (VDict [(py "query", VStr q);
                         (py "suggestion", VStr (analyze_query_performance U q d))]),
           [(q, d)])).
Proof.
  destruct (validate_request body) as [[q d]|] eqn:E.
  - right. exists q, d.
    pose proof (proj1 (validate_request_some body _) E) as [Hq Hd].
    split; [exact Hq | split; [exact Hd |]].
    unfold post_analyze_query. rewrite E. reflexivity.
  - left. split; [now apply validate_request_none_iff |].
    unfold post_analyze_query. now rewrite E.
Qed.

End GatewayBehaviour.
